(** * cord.py: statement validation and connection management

    A shallow embedding of [packages/statement/src/statement.py] and
    [packages/config/src/config.py].  Python dictionaries are finite maps
    keyed by strings, a function body is a computation that either falls
    through to the next statement, returns a value, or raises, and the
    process-wide configuration is an explicit store threaded through the
    connection functions. *)

From stdpp Require Import gmap strings.

(** ** Python values *)

Module py.

(** The scalar values the SDK passes around: [None], booleans and strings. *)
Inductive atom :=
  | PyNone
  | PyBool (b : bool)
  | PyStr (s : string).

#[global] Instance atom_eq_dec : EqDecision atom.
Proof. solve_decision. Defined.

(** A value is a scalar, a dictionary with scalar fields, or a
    [SubstrateInterface] instance, identified by the number of its
    connection. *)
Inductive value :=
  | Atom (a : atom)
  | Dict (d : gmap string atom)
  | Substrate (h : nat).

Definition None_ : value := Atom PyNone.
Definition True_ : value := Atom (PyBool true).
Definition False_ : value := Atom (PyBool false).

(** Exception classes.  The last three derive from [BaseException] only;
    every other class derives from [Exception]. *)
Inductive exn_class :=
  | KeyError
  | TypeError
  | AttributeError
  | ValueError
  | OSError
  | StatementHashMissingError
  | InvalidIdentifierError
  | SubstrateRequestException
  | CancelledError
  | KeyboardInterrupt
  | SystemExit.

#[global] Instance exn_class_eq_dec : EqDecision exn_class.
Proof. solve_decision. Defined.

(** An exception instance: its class and the text [str(e)] gives. *)
Record exn := Exn { exn_cls : exn_class; exn_str : string }.

(** [isinstance(e, Exception)] *)
Definition isinstance_Exception (e : exn) : bool :=
  match exn_cls e with
  | CancelledError | KeyboardInterrupt | SystemExit => false
  | _ => true
  end.

(** [isinstance(e, SubstrateRequestException)] *)
Definition isinstance_SubstrateRequestException (e : exn) : bool :=
  bool_decide (exn_cls e = SubstrateRequestException).

(** The outcome of a call: a value, or an exception on its way up. *)
Inductive result (A : Type) :=
  | Ok (a : A)
  | Err (e : exn).
Arguments Ok {A} a.
Arguments Err {A} e.

(** The outcome of a statement inside a function body: control falls
    through to the next statement, the function returns, or an exception
    is raised. *)
Inductive flow (A : Type) :=
  | Next (a : A)
  | Return (v : value)
  | Raise (e : exn).
Arguments Next {A} a.
Arguments Return {A} v.
Arguments Raise {A} e.

#[global] Instance flow_ret : MRet flow := fun _ a => Next a.
#[global] Instance flow_bind : MBind flow := fun _ _ k c =>
  match c with
  | Next a => k a
  | Return v => Return v
  | Raise e => Raise e
  end.

#[global] Instance result_ret : MRet result := fun _ a => Ok a.
#[global] Instance result_bind : MBind result := fun _ _ k r =>
  match r with
  | Ok a => k a
  | Err e => Err e
  end.

(** An expression evaluated in statement position. *)
Definition eval {A} (r : result A) : flow A :=
  match r with
  | Ok a => Next a
  | Err e => Raise e
  end.

(** [if b: body] *)
Definition If (b : bool) (body : flow unit) : flow unit :=
  if b then body else Next tt.

(** A [def]: a body that ends without [return] returns [None]. *)
Definition call (body : flow unit) : result value :=
  match body with
  | Next _ => Ok None_
  | Return v => Ok v
  | Raise e => Err e
  end.

(** [try: body  except C as error: handler], [C] given by its
    [isinstance] test. *)
Definition try_except {A} (body : flow A) (isinstance_C : exn -> bool)
    (handler : exn -> flow A) : flow A :=
  match body with
  | Raise e => if isinstance_C e then handler e else Raise e
  | other => other
  end.

(** Truth value of a scalar: [None], [False] and [''] are false. *)
Definition truthy (a : atom) : bool :=
  match a with
  | PyNone => false
  | PyBool b => b
  | PyStr s => negb (bool_decide (s = ""))
  end.

(** Truth value of a value: an empty dictionary is false, an object true. *)
Definition truth (v : value) : bool :=
  match v with
  | Atom a => truthy a
  | Dict d => negb (bool_decide (d = ∅))
  | Substrate _ => true
  end.

(** [a != b] on scalars. *)
Definition ne (a b : atom) : bool := negb (bool_decide (a = b)).

(** [str(a)], as an f-string formats it. *)
Definition str (a : atom) : string :=
  match a with
  | PyNone => "None"
  | PyBool true => "True"
  | PyBool false => "False"
  | PyStr s => s
  end.

Definition quote : string := String (Ascii.ascii_of_nat 34) EmptyString.
Definition apostrophe : string := String (Ascii.ascii_of_nat 39) EmptyString.

(** [KeyError(k)]; its [str] is the [repr] of the key. *)
Definition key_error (k : string) : exn :=
  Exn KeyError (apostrophe +:+ k +:+ apostrophe).

(** [d[k]] on a dictionary *)
Definition dict_getitem (d : gmap string atom) (k : string) : result atom :=
  match d !! k with
  | Some a => Ok a
  | None => Err (key_error k)
  end.

(** [v[k]] with a string key [k] *)
Definition getitem (v : value) (k : string) : result atom :=
  match v with
  | Dict d => dict_getitem d k
  | Atom (PyStr _) => Err (Exn TypeError "string indices must be integers, not 'str'")
  | Atom PyNone => Err (Exn TypeError "'NoneType' object is not subscriptable")
  | Atom (PyBool _) => Err (Exn TypeError "'bool' object is not subscriptable")
  | Substrate _ => Err (Exn TypeError "'SubstrateInterface' object is not subscriptable")
  end.

(** [v.get(k)] *)
Definition get (v : value) (k : string) : result atom :=
  match v with
  | Dict d => Ok (default PyNone (d !! k))
  | Atom (PyStr _) => Err (Exn AttributeError "'str' object has no attribute 'get'")
  | Atom PyNone => Err (Exn AttributeError "'NoneType' object has no attribute 'get'")
  | Atom (PyBool _) => Err (Exn AttributeError "'bool' object has no attribute 'get'")
  | Substrate _ => Err (Exn AttributeError "'SubstrateInterface' object has no attribute 'get'")
  end.

End py.

Import py.

(** ** statement.py *)

Module statement.

Section collaborators.

(** [statement_chain.fetch_statement_details_from_chain], awaited: the
    record the chain holds, nothing, or an exception. *)
Variable fetch_statement_details_from_chain : atom -> result value.
(** [statement_chain.get_uri_for_statement] *)
Variable get_uri_for_statement : atom -> atom -> atom -> atom.
(** [identifier.update_statement_uri] *)
Variable update_statement_uri : atom -> atom -> atom.
(** Which identifiers are well formed. *)
Variable valid_identifier : atom -> bool.
(** Which values are hexadecimal strings of a given number of bits. *)
Variable is_hex : atom -> nat -> bool.

(** Modelled from the spec: [identifier.check_identifier] is not part of
    the sources; it fails with [InvalidIdentifier] if the identifier is
    malformed and returns nothing otherwise. *)
Definition check_identifier (uri : atom) : result unit :=
  if valid_identifier uri then Ok tt
  else Err (Exn InvalidIdentifierError "invalid identifier").

(** Modelled from the spec: [data_utils.verify_is_hex] is not part of the
    sources; it fails if the value is not exactly [bit_length] bits of hex
    ([verify_data_structure] documents the failure as a [ValueError]). *)
Definition verify_is_hex (input : atom) (bit_length : nat) : result unit :=
  if is_hex input bit_length then Ok tt
  else Err (Exn ValueError "not a hex string of the required length").

Definition verify_data_structure (input : gmap string atom) : result value :=
  call (
    If (negb (bool_decide (is_Some (input !! "digest"))))
      (Raise (Exn StatementHashMissingError "statement hash missing"));;
    space_uri ← eval (dict_getitem input "space_uri");
    eval (check_identifier space_uri);;
    If (bool_decide (is_Some (input !! "schema_uri"))
        && truthy (default PyNone (input !! "schema_uri")))
      (schema_uri ← eval (dict_getitem input "schema_uri");
       eval (check_identifier schema_uri));;
    digest ← eval (dict_getitem input "digest");
    eval (verify_is_hex digest 256)).

Definition build_from_properties (digest space_uri creator_uri schema_uri : atom)
    : result value :=
  call (
    let stmt_uri := get_uri_for_statement digest space_uri creator_uri in
    let statement : gmap string atom :=
      {[ "element_uri" := stmt_uri;
         "digest" := digest;
         "creator_uri" := creator_uri;
         "space_uri" := space_uri;
         "schema_uri" := if truthy schema_uri then schema_uri else PyNone ]} in
    eval (verify_data_structure statement);;
    Return (Dict statement)).

Definition build_from_update_properties (stmt_uri digest space_uri creator_uri : atom)
    : result value :=
  call (
    let statement_uri := update_statement_uri stmt_uri digest in
    let statement : gmap string atom :=
      {[ "element_uri" := statement_uri;
         "digest" := digest;
         "creator_uri" := creator_uri;
         "space_uri" := space_uri ]} in
    eval (verify_data_structure statement);;
    Return (Dict statement)).

(** The dictionary [{'is_valid': ..., 'message': ...}]. *)
Definition verdict (is_valid : bool) (message : string) : value :=
  Dict {[ "is_valid" := PyBool is_valid; "message" := PyStr message ]}.

(** The body of the [try] block of [verify_against_properties]. *)
Definition checks (stmt_uri digest creator space_uri schema_uri : atom) : flow unit :=
  statement_status ← eval (fetch_statement_details_from_chain stmt_uri);
  If (negb (truth statement_status))
    (Return (verdict false
       ("Statement details for " +:+ quote +:+ str digest +:+ quote +:+ " not found.")));;
  remote_digest ← eval (getitem statement_status "digest");
  If (ne digest remote_digest)
    (Return (verdict false "Digest does not match with Statement Digest."));;
  revoked ← eval (get statement_status "revoked");
  If (truthy revoked)
    (Return (verdict false
       ("Statement " +:+ quote +:+ str stmt_uri +:+ quote +:+ " Revoked.")));;
  If (truthy creator)
    (remote_creator ← eval (getitem statement_status "creator_uri");
     If (ne creator remote_creator)
       (Return (verdict false "Statement and Digest creator does not match.")));;
  If (truthy space_uri)
    (remote_space ← eval (getitem statement_status "space_uri");
     If (ne space_uri remote_space)
       (Return (verdict false "Statement and Digest space details does not match.")));;
  If (truthy schema_uri)
    (remote_schema ← eval (getitem statement_status "schema_uri");
     If (ne schema_uri remote_schema)
       (Return (verdict false "Statement and Digest schema details does not match.")));;
  Return (verdict true
    "Digest properties provided are valid and match the statement details.").

(** The [except Exception as error] handler. *)
Definition recover (error : exn) : flow unit :=
  Return (verdict false ("Error verifying properties: " +:+ exn_str error)).

Definition verify_against_properties
    (stmt_uri digest creator space_uri schema_uri : atom) : result value :=
  call (try_except (checks stmt_uri digest creator space_uri schema_uri)
          isinstance_Exception recover).

(** *** The verification steps as the specification lists them

    A check on the fetched record passes ([Ok None]), fails with a message
    ([Ok (Some m)]), or cannot be evaluated ([Err e]). *)
Definition check : Type := result (option string).

(** Step 1: nothing was found. *)
Definition check_found (digest : atom) (remote : value) : check :=
  Ok (if truth remote then None
      else Some ("Statement details for " +:+ quote +:+ str digest +:+ quote
                 +:+ " not found.")).

(** Step 2: the supplied digest differs from the remote digest. *)
Definition check_digest (digest : atom) (remote : value) : check :=
  remote_digest ← getitem remote "digest";
  Ok (if ne digest remote_digest
      then Some "Digest does not match with Statement Digest." else None).

(** Step 3: the remote record is flagged revoked. *)
Definition check_revoked (stmt_uri : atom) (remote : value) : check :=
  revoked ← get remote "revoked";
  Ok (if truthy revoked
      then Some ("Statement " +:+ quote +:+ str stmt_uri +:+ quote +:+ " Revoked.")
      else None).

(** Steps 4 to 6: a property was supplied and differs from the remote one. *)
Definition check_supplied (supplied : atom) (field message : string)
    (remote : value) : check :=
  if truthy supplied
  then remote_field ← getitem remote field;
       Ok (if ne supplied remote_field then Some message else None)
  else Ok None.

Definition spec_checks (stmt_uri digest creator space_uri schema_uri : atom)
    (remote : value) : list check :=
  [ check_found digest remote;
    check_digest digest remote;
    check_revoked stmt_uri remote;
    check_supplied creator "creator_uri"
      "Statement and Digest creator does not match." remote;
    check_supplied space_uri "space_uri"
      "Statement and Digest space details does not match." remote;
    check_supplied schema_uri "schema_uri"
      "Statement and Digest schema details does not match." remote ].

(** The first check, in list order, that does not pass; the checks after
    it play no part. *)
Fixpoint first_failure (cs : list check) : check :=
  match cs with
  | [] => Ok None
  | Ok None :: rest => first_failure rest
  | stop :: _ => stop
  end.

(** What becomes of an exception of the fetch or of a check. *)
Definition converted (e : exn) : result value :=
  if isinstance_Exception e
  then Ok (verdict false ("Error verifying properties: " +:+ exn_str e))
  else Err e.

Definition spec_verify (stmt_uri digest creator space_uri schema_uri : atom)
    : result value :=
  match fetch_statement_details_from_chain stmt_uri with
  | Err e => converted e
  | Ok remote =>
      match first_failure
              (spec_checks stmt_uri digest creator space_uri schema_uri remote) with
      | Ok (Some message) => Ok (verdict false message)
      | Ok None =>
          Ok (verdict true
                "Digest properties provided are valid and match the statement details.")
      | Err e => converted e
      end
  end.

End collaborators.

End statement.

(** ** config.py *)

Module config.

(** What the connection functions act on: the configuration store of
    [ConfigService], the connections closed so far (most recent first), and
    the messages handed to [logger.info] (most recent first). *)
Record world := World {
  configuration : gmap string value;
  closed : list nat;
  logged : list string;
}.

(** A statement that reads and writes the world. *)
Definition proc (A : Type) : Type := world -> flow A * world.

Definition pure {A} (c : flow A) : proc A := fun w => (c, w).

Definition then_ {A B} (c : proc A) (k : A -> proc B) : proc B := fun w =>
  match c w with
  | (Next a, w') => k a w'
  | (Return v, w') => (Return v, w')
  | (Raise e, w') => (Raise e, w')
  end.

Declare Scope proc_scope.
Delimit Scope proc_scope with proc.
Notation "x <- c ;; k" := (then_ c (fun x => k))
  (at level 100, c at next level, right associativity) : proc_scope.
Notation "c ;; k" := (then_ c (fun _ => k))
  (at level 100, right associativity) : proc_scope.

(** [if b: body] *)
Definition If_ (b : bool) (body : proc unit) : proc unit :=
  if b then body else pure (Next tt).

(** A [def] over the world. *)
Definition call_ (body : proc unit) (w : world) : result value * world :=
  let (c, w') := body w in (call c, w').

(** [try: body  except C as e: handler] over the world; the handler runs
    in the world the body left behind. *)
Definition try_except_ {A} (body : proc A) (isinstance_C : exn -> bool)
    (handler : exn -> proc A) : proc A := fun w =>
  match body w with
  | (Raise e, w') => if isinstance_C e then handler e w' else (Raise e, w')
  | other => other
  end.

(** Modelled from the spec: [service.ConfigService] is not part of the
    sources.  It holds the process-wide configuration state; [set]
    replaces that state wholesale with the supplied mapping, [is_set]
    tells whether a key is currently stored, [get] reads the value stored
    under a key and [unset] removes the key. *)
Definition ConfigService_set (configs : gmap string value) : proc unit := fun w =>
  (Next tt, World configs (closed w) (logged w)).

Definition ConfigService_is_set (key : string) : proc bool := fun w =>
  (Next (bool_decide (is_Some (configuration w !! key))), w).

Definition ConfigService_get (key : string) : proc value := fun w =>
  match configuration w !! key with
  | Some v => (Next v, w)
  | None => (Raise (key_error key), w)
  end.

Definition ConfigService_unset (key : string) : proc unit := fun w =>
  (Next tt, World (delete key (configuration w)) (closed w) (logged w)).

(** [logger.info(message)] *)
Definition logger_info (message : string) : proc unit := fun w =>
  (Next tt, World (configuration w) (closed w) (message :: logged w)).

(** [api.close()]: a [SubstrateInterface] closes its connection; any other
    value has no such method. *)
Definition close (api : value) : proc unit := fun w =>
  match api with
  | Substrate h => (Next tt, World (configuration w) (h :: closed w) (logged w))
  | Dict _ => (Raise (Exn AttributeError "'dict' object has no attribute 'close'"), w)
  | Atom (PyStr _) => (Raise (Exn AttributeError "'str' object has no attribute 'close'"), w)
  | Atom (PyBool _) => (Raise (Exn AttributeError "'bool' object has no attribute 'close'"), w)
  | Atom PyNone => (Raise (Exn AttributeError "'NoneType' object has no attribute 'close'"), w)
  end.

Section transport.

(** [scalecodec.type_registry.load_type_registry_file] *)
Variable load_type_registry_file : string -> result value.
(** The constructor [SubstrateInterface(url=..., **api_options,
    type_registry=...)]: the number of the connection it opens, or the
    exception it raises. *)
Variable SubstrateInterface : string -> gmap string value -> value -> result nat.

(** [configs or {}] *)
Definition or_empty (configs : option (gmap string value)) : gmap string value :=
  match configs with
  | Some c => if bool_decide (c = ∅) then ∅ else c
  | None => ∅
  end.

Definition init (configs : option (gmap string value)) : world -> result value * world :=
  call_ (ConfigService_set (or_empty configs)).

(** The keyword arguments of the constructor call: a key of [api_options]
    that repeats [url] or [type_registry] is a [TypeError]. *)
Definition construct (url : string) (api_options : gmap string value)
    (type_registry : value) : result nat :=
  if bool_decide (is_Some (api_options !! "url"))
  then Err (Exn TypeError "got multiple values for keyword argument 'url'")
  else if bool_decide (is_Some (api_options !! "type_registry"))
  then Err (Exn TypeError "got multiple values for keyword argument 'type_registry'")
  else SubstrateInterface url api_options type_registry.

(** A call, in statement position, of a function over the world. *)
Definition invoke (f : world -> result value * world) : proc value := fun w =>
  let (r, w') := f w in (eval r, w').

Definition connect (blockchain_rpc_ws_url : string) (no_init_warn : bool)
    (api_options : gmap string value) : world -> result value * world :=
  call_ (
    try_except_ (
      custom_type <- pure (eval (load_type_registry_file "custom-type.json"));;
      substrate <- pure (eval (construct blockchain_rpc_ws_url api_options custom_type));;
      invoke (init (Some {[ "api" := Substrate substrate ]}));;
      pure (Return (Substrate substrate)))
    isinstance_SubstrateRequestException
    (fun e =>
       logger_info ("Error connecting to blockchain: " +:+ exn_str e);;
       pure (Raise e)))%proc.

End transport.

Definition disconnect : world -> result value * world :=
  call_ (
    is_set <- ConfigService_is_set "api";;
    If_ (negb is_set) (pure (Return False_));;
    api <- ConfigService_get "api";;
    ConfigService_unset "api";;
    close api;;
    pure (Return True_))%proc.

End config.

(** ** Stand-ins for the collaborators, for the worked examples *)

Module sample.

(** The remote record of the specification's examples. *)
Definition remote : gmap string atom :=
  {[ "digest" := PyStr "0xAA";
     "creator_uri" := PyStr "did:c1";
     "space_uri" := PyStr "space:s1";
     "schema_uri" := PyStr "schema:x";
     "revoked" := PyBool false ]}.

Definition revoked_remote : gmap string atom :=
  <[ "revoked" := PyBool true ]> remote.

Definition fetch_found (_ : atom) : result value := Ok (Dict remote).
Definition fetch_revoked (_ : atom) : result value := Ok (Dict revoked_remote).
Definition fetch_cancelled (_ : atom) : result value :=
  Err (Exn CancelledError "").
Definition fetch_unreachable (_ : atom) : result value :=
  Err (Exn OSError "connection refused").

Definition derive_uri (digest space_uri creator_uri : atom) : atom :=
  PyStr ("stmt:" +:+ str digest +:+ ":" +:+ str space_uri +:+ ":" +:+ str creator_uri).
Definition update_uri (stmt_uri digest : atom) : atom :=
  PyStr (str stmt_uri +:+ ":" +:+ str digest).
Definition any_identifier (_ : atom) : bool := true.
Definition any_hex (_ : atom) (_ : nat) : bool := true.

Definition registry_found (_ : string) : result value := Ok (Dict ∅).
Definition registry_missing (_ : string) : result value :=
  Err (Exn OSError "No such file or directory: 'custom-type.json'").
Definition transport_accepts (_ : string) (_ : gmap string value) (_ : value)
    : result nat := Ok 7.
Definition transport_rejects (_ : string) (_ : gmap string value) (_ : value)
    : result nat := Err (Exn SubstrateRequestException "connection rejected").

Definition fresh : config.world := config.World ∅ [] [].
Definition connected : config.world :=
  config.World {[ "api" := Substrate 1 ]} [] [].
Definition configured : config.world :=
  config.World {[ "log_level" := Atom (PyStr "debug") ]} [] [].
Definition rejected : exn := Exn SubstrateRequestException "connection rejected".
Definition endpoint : string := "ws://127.0.0.1:9944".

Definition no_hex (_ : atom) (_ : nat) : bool := false.
Definition fetch_empty (_ : atom) : result value := Ok (Dict ∅).
Definition fetch_no_digest (_ : atom) : result value :=
  Ok (Dict {[ "creator_uri" := PyStr "did:c1" ]}).

End sample.

(** ** Properties of statement.py *)

Module statement_spec.

Import statement.

Section collaborators.

Variable fetch : atom -> result value.
Variable get_uri_for_statement : atom -> atom -> atom -> atom.
Variable update_statement_uri : atom -> atom -> atom.
Variable valid_identifier : atom -> bool.
Variable is_hex : atom -> nat -> bool.

(** Runs the control operators of a body on the outcomes known so far. *)
Ltac run :=
  cbn [mbind flow_bind result_bind mret flow_ret result_ret eval If call
       try_except first_failure negb].

(** Closes a goal in which an exception has reached the handler. *)
Ltac handled :=
  unfold converted, recover;
  repeat match goal with
         | |- context [isinstance_Exception ?e] =>
             destruct (isinstance_Exception e)
         end;
  reflexivity.

(** One optional comparison of the body against its check: the body goes
    on when the check passes, returns the failure verdict when it fails,
    and raises when the check cannot be evaluated. *)
Lemma supplied_step (supplied : atom) (field message : string) (remote : value)
    (rest : flow unit) :
  (If (truthy supplied)
     (remote_field ← eval (getitem remote field);
      If (ne supplied remote_field) (Return (verdict false message)));;
   rest)
  = match check_supplied supplied field message remote with
    | Ok None => rest
    | Ok (Some m) => Return (verdict false m)
    | Err e => Raise e
    end.
Proof.
  unfold check_supplied. destruct (truthy supplied); run; [|reflexivity].
  destruct (getitem remote field) as [remote_field|e]; run; [|reflexivity].
  by destruct (ne supplied remote_field).
Qed.

Lemma verify_refines (stmt_uri digest creator space_uri schema_uri : atom) :
  verify_against_properties fetch stmt_uri digest creator space_uri schema_uri
  = spec_verify fetch stmt_uri digest creator space_uri schema_uri.
Proof.
  unfold verify_against_properties, spec_verify, checks, spec_checks.
  unfold check_found, check_digest, check_revoked.
  destruct (fetch stmt_uri) as [remote|e]; run; [|handled].
  destruct (truth remote); run; [|reflexivity].
  destruct (getitem remote "digest") as [remote_digest|e]; run; [|handled].
  destruct (ne digest remote_digest); run; [reflexivity|].
  destruct (get remote "revoked") as [revoked|e]; run; [|handled].
  destruct (truthy revoked); run; [reflexivity|].
  rewrite !supplied_step.
  destruct (check_supplied creator _ _ _) as [[m|]|e]; run;
    [reflexivity| |handled].
  destruct (check_supplied space_uri _ _ _) as [[m|]|e]; run;
    [reflexivity| |handled].
  destruct (check_supplied schema_uri _ _ _) as [[m|]|e]; run;
    [reflexivity|reflexivity|handled].
Qed.

Lemma ne_same (a : atom) : ne a a = false.
Proof. unfold ne. by rewrite bool_decide_eq_true_2. Qed.

Lemma ne_differ (a b : atom) : a ≠ b -> ne a b = true.
Proof. intros H. unfold ne. by rewrite bool_decide_eq_false_2. Qed.

Lemma truth_of_record (d : gmap string atom) (k : string) (a : atom) :
  d !! k = Some a -> truth (Dict d) = true.
Proof.
  intros H. simpl. rewrite bool_decide_eq_false_2; [done|].
  intros ->. by rewrite lookup_empty in H.
Qed.

(** A subscript or a [.get] that fails raises a [TypeError], a [KeyError]
    or an [AttributeError], all of them [Exception]s. *)
Lemma getitem_raises_Exception (v : value) (k : string) (e : exn) :
  getitem v k = Err e -> isinstance_Exception e = true.
Proof.
  destruct v as [[| |]|d|]; simpl; try (intros [= <-]; reflexivity).
  unfold dict_getitem. destruct (d !! k); intros [= <-]. reflexivity.
Qed.

Lemma get_raises_Exception (v : value) (k : string) (e : exn) :
  get v k = Err e -> isinstance_Exception e = true.
Proof. destruct v as [[| |]|d|]; simpl; intros [= <-]; reflexivity. Qed.

Lemma check_supplied_raises_Exception (a : atom) (k m : string) (v : value) (e : exn) :
  check_supplied a k m v = Err e -> isinstance_Exception e = true.
Proof.
  unfold check_supplied. destruct (truthy a); [|done].
  destruct (getitem v k) eqn:E; simpl; [done|].
  intros [= <-]. by eapply getitem_raises_Exception.
Qed.

Lemma checks_raise_Exception
    (stmt_uri digest creator space_uri schema_uri : atom) (remote : value) (e : exn) :
  first_failure (spec_checks stmt_uri digest creator space_uri schema_uri remote) = Err e ->
  isinstance_Exception e = true.
Proof.
  unfold spec_checks, check_found, check_digest, check_revoked. simpl.
  destruct (truth remote); [|done].
  destruct (getitem remote "digest") as [rd|e1] eqn:E1; simpl;
    [|intros [= <-]; by eapply getitem_raises_Exception].
  destruct (ne digest rd); [done|].
  destruct (get remote "revoked") as [rv|e2] eqn:E2; simpl;
    [|intros [= <-]; by eapply get_raises_Exception].
  destruct (truthy rv); [done|].
  destruct (check_supplied creator _ _ remote) as [[?|]|?] eqn:E3;
    [done| |intros [= <-]; by eapply check_supplied_raises_Exception].
  destruct (check_supplied space_uri _ _ remote) as [[?|]|?] eqn:E4;
    [done| |intros [= <-]; by eapply check_supplied_raises_Exception].
  destruct (check_supplied schema_uri _ _ remote) as [[?|]|?] eqn:E5;
    [done|done|intros [= <-]; by eapply check_supplied_raises_Exception].
Qed.

Lemma check_revoked_record (stmt_uri : atom) (d : gmap string atom) :
  check_revoked stmt_uri (Dict d)
  = Ok (if truthy (default PyNone (d !! "revoked"))
        then Some ("Statement " +:+ quote +:+ str stmt_uri +:+ quote +:+ " Revoked.")
        else None).
Proof. reflexivity. Qed.

Lemma check_supplied_differs (a r : atom) (k m : string) (d : gmap string atom) :
  truthy a = true -> d !! k = Some r -> a ≠ r ->
  check_supplied a k m (Dict d) = Ok (Some m).
Proof.
  intros Ha Hk Hne. unfold check_supplied. rewrite Ha.
  cbn [getitem]. unfold dict_getitem. rewrite Hk.
  cbn [mbind result_bind]. by rewrite ne_differ.
Qed.

Lemma check_supplied_skipped (a : atom) (k m : string) (v : value) :
  truthy a = false -> check_supplied a k m v = Ok None.
Proof. intros Ha. unfold check_supplied. by rewrite Ha. Qed.

(** The outcome of [verify_against_properties] once the fetch has
    returned a record whose digest is the supplied one. *)
Lemma first_failure_digest_ok
    (stmt_uri digest creator space_uri schema_uri : atom) (d : gmap string atom) :
  d !! "digest" = Some digest ->
  first_failure (spec_checks stmt_uri digest creator space_uri schema_uri (Dict d))
  = first_failure
      [ check_revoked stmt_uri (Dict d);
        check_supplied creator "creator_uri"
          "Statement and Digest creator does not match." (Dict d);
        check_supplied space_uri "space_uri"
          "Statement and Digest space details does not match." (Dict d);
        check_supplied schema_uri "schema_uri"
          "Statement and Digest schema details does not match." (Dict d) ].
Proof.
  intros H. unfold spec_checks, check_found, check_digest.
  rewrite (truth_of_record d _ _ H).
  cbn [getitem]. unfold dict_getitem. rewrite H.
  cbn [mbind result_bind]. by rewrite ne_same.
Qed.

(** C1. The checks of [verify_against_properties] run in one fixed order:
    not found, digest mismatch, revoked, creator mismatch, space mismatch,
    schema mismatch.  Its result is that of the first check in this list
    that does not pass, whatever the later ones would give; in particular
    a revoked remote record with a matching digest gives the revocation
    message for every supplied creator, space and schema. *)
Theorem verify_checks_in_order (stmt_uri digest : atom) :
  (forall creator space_uri schema_uri,
     verify_against_properties fetch stmt_uri digest creator space_uri schema_uri
     = spec_verify fetch stmt_uri digest creator space_uri schema_uri)
  /\ (forall d creator space_uri schema_uri,
        fetch stmt_uri = Ok (Dict d) ->
        d !! "digest" = Some digest ->
        truthy (default PyNone (d !! "revoked")) = true ->
        verify_against_properties fetch stmt_uri digest creator space_uri schema_uri
        = Ok (verdict false
                ("Statement " +:+ quote +:+ str stmt_uri +:+ quote +:+ " Revoked."))).
Proof.
  split; [intros; apply verify_refines|].
  intros d creator space_uri schema_uri Hfetch Hdigest Hrevoked.
  rewrite verify_refines. unfold spec_verify. rewrite Hfetch.
  rewrite first_failure_digest_ok by done.
  rewrite check_revoked_record, Hrevoked. reflexivity.
Qed.

(** C2, amended. [verify_against_properties] never raises an [Exception]:
    when the fetch returns anything or raises an [Exception], the function
    returns a verdict [{is_valid, message}]; every [Exception] raised inside
    the [try] block becomes the verdict
    [{is_valid: false, message: "Error verifying properties: <error>"}].
    An exception of the fetch that derives from [BaseException] only is not
    handled by [except Exception] and reaches the caller. *)
Theorem verify_converts_Exceptions
    (stmt_uri digest creator space_uri schema_uri : atom) :
  ((forall e, fetch stmt_uri = Err e -> isinstance_Exception e = true) ->
   exists is_valid message,
     verify_against_properties fetch stmt_uri digest creator space_uri schema_uri
     = Ok (verdict is_valid message))
  /\ (forall e,
        checks fetch stmt_uri digest creator space_uri schema_uri = Raise e ->
        isinstance_Exception e = true ->
        verify_against_properties fetch stmt_uri digest creator space_uri schema_uri
        = Ok (verdict false ("Error verifying properties: " +:+ exn_str e)))
  /\ (forall e,
        fetch stmt_uri = Err e ->
        isinstance_Exception e = false ->
        verify_against_properties fetch stmt_uri digest creator space_uri schema_uri
        = Err e).
Proof.
  split; [|split].
  - intros Hfetch. rewrite verify_refines. unfold spec_verify.
    destruct (fetch stmt_uri) as [remote|e] eqn:E.
    + destruct (first_failure _) as [[m|]|e] eqn:F; eauto.
      unfold converted. rewrite (checks_raise_Exception _ _ _ _ _ _ _ F). eauto.
    + unfold converted. rewrite (Hfetch e eq_refl). eauto.
  - intros e Hbody He. unfold verify_against_properties. rewrite Hbody.
    cbn [try_except]. rewrite He. reflexivity.
  - intros e Hfetch He. unfold verify_against_properties, checks.
    rewrite Hfetch. run. rewrite He. reflexivity.
Qed.

(** C3, amended. When the remote record is found, the digests match and
    the record is not revoked, a supplied creator that is not empty and
    differs from the remote [creator_uri] gives the creator-mismatch
    verdict; a creator that is [None] or empty is not compared at all. *)
Theorem verify_creator_mismatch
    (stmt_uri digest creator space_uri schema_uri : atom)
    (d : gmap string atom) (remote_creator : atom) :
  fetch stmt_uri = Ok (Dict d) ->
  d !! "digest" = Some digest ->
  truthy (default PyNone (d !! "revoked")) = false ->
  d !! "creator_uri" = Some remote_creator ->
  (truthy creator = true ->
   creator ≠ remote_creator ->
   verify_against_properties fetch stmt_uri digest creator space_uri schema_uri
   = Ok (verdict false "Statement and Digest creator does not match."))
  /\ (truthy creator = false ->
      verify_against_properties fetch stmt_uri digest creator space_uri schema_uri
      = verify_against_properties fetch stmt_uri digest PyNone space_uri schema_uri).
Proof.
  intros Hfetch Hdigest Hrevoked Hcreator.
  rewrite !verify_refines. unfold spec_verify. rewrite Hfetch.
  rewrite !first_failure_digest_ok by done.
  rewrite check_revoked_record, Hrevoked. split.
  - intros Hsupplied Hne.
    by rewrite (check_supplied_differs _ _ _ _ _ Hsupplied Hcreator Hne).
  - intros Hempty.
    by rewrite (check_supplied_skipped creator), (check_supplied_skipped PyNone).
Qed.

(** [verify_data_structure] step by step: the four checks in the order
    the code makes them, the second one reading [input['space_uri']]
    whether or not the key is there. *)
Lemma verify_data_structure_steps (input : gmap string atom) :
  verify_data_structure valid_identifier is_hex input =
  match input !! "digest" with
  | None => Err (Exn StatementHashMissingError "statement hash missing")
  | Some digest =>
      match input !! "space_uri" with
      | None => Err (key_error "space_uri")
      | Some space_uri =>
          if negb (valid_identifier space_uri)
          then Err (Exn InvalidIdentifierError "invalid identifier")
          else if truthy (default PyNone (input !! "schema_uri"))
                  && negb (valid_identifier (default PyNone (input !! "schema_uri")))
          then Err (Exn InvalidIdentifierError "invalid identifier")
          else if is_hex digest 256 then Ok None_
          else Err (Exn ValueError "not a hex string of the required length")
      end
  end.
Proof.
  unfold verify_data_structure, dict_getitem, check_identifier, verify_is_hex.
  destruct (input !! "digest") as [digest|]; [|reflexivity].
  rewrite (bool_decide_eq_true_2 (is_Some (Some digest))) by done. run.
  destruct (input !! "space_uri") as [space_uri|]; run; [|reflexivity].
  destruct (valid_identifier space_uri); run; [|reflexivity].
  destruct (input !! "schema_uri") as [schema_uri|];
    cbn [default from_option id truthy andb].
  - rewrite bool_decide_eq_true_2 by done. cbn [andb].
    destruct (truthy schema_uri); run.
    + destruct (valid_identifier schema_uri); run; [|reflexivity].
      by destruct (is_hex digest 256).
    + by destruct (is_hex digest 256).
  - rewrite bool_decide_eq_false_2 by (by intros [? ?]). run.
    by destruct (is_hex digest 256).
Qed.

(** C4, amended. For a valid 256-bit hex digest and a valid space
    identifier, and a [schema_uri] that is omitted, empty, or a valid
    identifier, [build_from_properties] returns a record whose [digest],
    [creator_uri] and [space_uri] are the inputs, whose [element_uri] is
    the derivation of [(digest, space_uri, creator_uri)], and whose
    [schema_uri] is the input when that is not empty and [None] when it is
    empty or omitted. *)
Theorem build_from_properties_fields (digest space_uri creator_uri schema_uri : atom) :
  is_hex digest 256 = true ->
  valid_identifier space_uri = true ->
  (truthy schema_uri = true -> valid_identifier schema_uri = true) ->
  exists statement,
    build_from_properties get_uri_for_statement valid_identifier is_hex
      digest space_uri creator_uri schema_uri = Ok (Dict statement)
    /\ statement !! "element_uri"
       = Some (get_uri_for_statement digest space_uri creator_uri)
    /\ statement !! "digest" = Some digest
    /\ statement !! "creator_uri" = Some creator_uri
    /\ statement !! "space_uri" = Some space_uri
    /\ statement !! "schema_uri"
       = Some (if truthy schema_uri then schema_uri else PyNone).
Proof.
  intros Hhex Hspace Hschema.
  exists {[ "element_uri" := get_uri_for_statement digest space_uri creator_uri;
            "digest" := digest;
            "creator_uri" := creator_uri;
            "space_uri" := space_uri;
            "schema_uri" := if truthy schema_uri then schema_uri else PyNone ]}.
  split.
  - unfold build_from_properties. cbv zeta.
    rewrite verify_data_structure_steps.
    replace (_ !! "digest") with (Some digest) by reflexivity.
    replace (_ !! "space_uri") with (Some space_uri) by reflexivity.
    replace (_ !! "schema_uri")
      with (Some (if truthy schema_uri then schema_uri else PyNone)) by reflexivity.
    rewrite Hspace, Hhex. cbn [negb default from_option id].
    destruct (truthy schema_uri) eqn:E; [rewrite E, Hschema by done|];
      reflexivity.
  - repeat split; reflexivity.
Qed.

(** C5. Two calls of [build_from_update_properties] with the same prior
    URI and digest that both return give records with the same
    [element_uri], the update of the prior URI with the digest, whatever
    the space and the creator. *)
Theorem update_element_uri_independent
    (stmt_uri digest space1 creator1 space2 creator2 : atom) (r1 r2 : value) :
  build_from_update_properties update_statement_uri valid_identifier is_hex
    stmt_uri digest space1 creator1 = Ok r1 ->
  build_from_update_properties update_statement_uri valid_identifier is_hex
    stmt_uri digest space2 creator2 = Ok r2 ->
  getitem r1 "element_uri" = Ok (update_statement_uri stmt_uri digest)
  /\ getitem r2 "element_uri" = getitem r1 "element_uri".
Proof.
  unfold build_from_update_properties. cbv zeta. intros H1 H2.
  destruct (verify_data_structure _ _ _) in H1; [|discriminate].
  destruct (verify_data_structure _ _ _) in H2; [|discriminate].
  cbn in H1, H2. injection H1 as <-. injection H2 as <-.
  split; reflexivity.
Qed.

(** C6. [verify_data_structure] fails with [StatementHashMissingError]
    exactly when the mapping has no [digest] key, whatever its other
    fields are. *)
Theorem hash_missing_iff_no_digest (input : gmap string atom) :
  (exists e, verify_data_structure valid_identifier is_hex input = Err e
             /\ exn_cls e = StatementHashMissingError)
  <-> input !! "digest" = None.
Proof.
  rewrite verify_data_structure_steps. split.
  - intros (e & H & Hcls).
    destruct (input !! "digest") as [digest|]; [exfalso|reflexivity].
    destruct (input !! "space_uri") as [space_uri|];
      [|injection H as <-; discriminate].
    destruct (negb _); [injection H as <-; discriminate|].
    destruct (_ && _); [injection H as <-; discriminate|].
    destruct (is_hex _ _); [discriminate|injection H as <-; discriminate].
  - intros ->. eauto.
Qed.

(** C9. A mapping that has a [digest] key but no [space_uri] key makes
    [verify_data_structure] raise the [KeyError] of the lookup
    [input['space_uri']], which is neither [StatementHashMissingError] nor
    [InvalidIdentifierError]. *)
Theorem missing_space_uri_is_key_error (input : gmap string atom) (digest : atom) :
  input !! "digest" = Some digest ->
  input !! "space_uri" = None ->
  verify_data_structure valid_identifier is_hex input = Err (key_error "space_uri")
  /\ exn_cls (key_error "space_uri") = KeyError.
Proof.
  intros Hdigest Hspace. rewrite verify_data_structure_steps, Hdigest, Hspace.
  split; reflexivity.
Qed.

(** *** The shape check, outcome by outcome *)

Lemma verify_data_structure_returns_None (input : gmap string atom) (v : value) :
  verify_data_structure valid_identifier is_hex input = Ok v -> v = None_.
Proof.
  rewrite verify_data_structure_steps.
  destruct (input !! "digest"); [|discriminate].
  destruct (input !! "space_uri"); [|discriminate].
  destruct (negb _); [discriminate|].
  destruct (_ && _); [discriminate|].
  destruct (is_hex _ _); [|discriminate].
  by intros [= <-].
Qed.

(** X1. [verify_data_structure] returns (nothing) exactly when the mapping
    has a [digest] that is 256-bit hex, a [space_uri] that is a valid
    identifier, and a [schema_uri] that is absent, [None], empty, or a
    valid identifier. *)
Theorem verify_data_structure_accepts_iff (input : gmap string atom) :
  verify_data_structure valid_identifier is_hex input = Ok None_
  <-> exists digest space_uri,
        input !! "digest" = Some digest
        /\ input !! "space_uri" = Some space_uri
        /\ valid_identifier space_uri = true
        /\ (truthy (default PyNone (input !! "schema_uri")) = true ->
            valid_identifier (default PyNone (input !! "schema_uri")) = true)
        /\ is_hex digest 256 = true.
Proof.
  rewrite verify_data_structure_steps. split.
  - destruct (input !! "digest") as [digest|]; [|discriminate].
    destruct (input !! "space_uri") as [space_uri|]; [|discriminate].
    destruct (valid_identifier space_uri) eqn:Hspace; [|discriminate].
    cbn [negb].
    destruct (truthy _) eqn:Htruthy; cbn [andb].
    + destruct (valid_identifier (default _ _)) eqn:Hschema; [|discriminate].
      cbn [negb]. destruct (is_hex digest 256) eqn:Hhex; [|discriminate].
      intros _. by exists digest, space_uri.
    + destruct (is_hex digest 256) eqn:Hhex; [|discriminate].
      intros _. by exists digest, space_uri.
  - intros (digest & space_uri & -> & -> & -> & Hschema & ->). cbn [negb].
    destruct (truthy _); [|reflexivity].
    by rewrite Hschema.
Qed.

(** X2. [verify_data_structure] fails with [InvalidIdentifierError] exactly
    when [digest] and [space_uri] are present and either [space_uri] is
    malformed or [schema_uri] is non-empty and malformed; whether the
    digest is valid hex plays no part, the identifiers being checked
    first. *)
Theorem invalid_identifier_iff (input : gmap string atom) :
  (exists e, verify_data_structure valid_identifier is_hex input = Err e
             /\ exn_cls e = InvalidIdentifierError)
  <-> exists digest space_uri,
        input !! "digest" = Some digest
        /\ input !! "space_uri" = Some space_uri
        /\ (valid_identifier space_uri = false
            \/ truthy (default PyNone (input !! "schema_uri")) = true
               /\ valid_identifier (default PyNone (input !! "schema_uri")) = false).
Proof.
  rewrite verify_data_structure_steps. split.
  - intros (e & H & Hcls).
    destruct (input !! "digest") as [digest|];
      [|injection H as <-; discriminate].
    destruct (input !! "space_uri") as [space_uri|];
      [|injection H as <-; discriminate].
    exists digest, space_uri. do 2 (split; [reflexivity|]).
    destruct (valid_identifier space_uri); [right|by left].
    cbn [negb] in H.
    destruct (truthy _); cbn [andb] in H.
    + destruct (valid_identifier (default _ _)); [|done].
      cbn [negb] in H.
      destruct (is_hex _ _); [discriminate|injection H as <-; discriminate].
    + destruct (is_hex _ _); [discriminate|injection H as <-; discriminate].
  - intros (digest & space_uri & -> & -> & [-> | [-> ->]]).
    + eauto.
    + destruct (valid_identifier space_uri); cbn; eauto.
Qed.

(** X3. A [schema_uri] that is [None], [False] or empty is not validated:
    the mapping is checked as if the key were not there. *)
Theorem falsy_schema_uri_not_checked (input : gmap string atom) (schema_uri : atom) :
  truthy schema_uri = false ->
  verify_data_structure valid_identifier is_hex (<[ "schema_uri" := schema_uri ]> input)
  = verify_data_structure valid_identifier is_hex (delete "schema_uri" input).
Proof.
  intros Hfalsy. rewrite !verify_data_structure_steps.
  rewrite !lookup_insert_ne, !lookup_delete_ne by done.
  rewrite lookup_insert_eq, lookup_delete_eq.
  cbn [default from_option id]. rewrite Hfalsy. reflexivity.
Qed.

(** *** The builders, outcome by outcome *)

Lemma build_from_properties_steps (digest space_uri creator_uri schema_uri : atom) :
  build_from_properties get_uri_for_statement valid_identifier is_hex
    digest space_uri creator_uri schema_uri
  = if negb (valid_identifier space_uri)
    then Err (Exn InvalidIdentifierError "invalid identifier")
    else if truthy schema_uri && negb (valid_identifier schema_uri)
    then Err (Exn InvalidIdentifierError "invalid identifier")
    else if is_hex digest 256
    then Ok (Dict {[ "element_uri" := get_uri_for_statement digest space_uri creator_uri;
                     "digest" := digest;
                     "creator_uri" := creator_uri;
                     "space_uri" := space_uri;
                     "schema_uri" := if truthy schema_uri then schema_uri else PyNone ]})
    else Err (Exn ValueError "not a hex string of the required length").
Proof.
  unfold build_from_properties. cbv zeta. rewrite verify_data_structure_steps.
  replace (_ !! "digest") with (Some digest) by reflexivity.
  replace (_ !! "space_uri") with (Some space_uri) by reflexivity.
  replace (_ !! "schema_uri")
    with (Some (if truthy schema_uri then schema_uri else PyNone)) by reflexivity.
  cbn [default from_option id].
  destruct (valid_identifier space_uri); cbn [negb]; [|reflexivity].
  destruct (truthy schema_uri) eqn:E; [rewrite E|]; cbn [truthy andb].
  - destruct (valid_identifier schema_uri); cbn [negb]; [|reflexivity].
    by destruct (is_hex digest 256).
  - by destruct (is_hex digest 256).
Qed.

Lemma build_from_update_properties_steps (stmt_uri digest space_uri creator_uri : atom) :
  build_from_update_properties update_statement_uri valid_identifier is_hex
    stmt_uri digest space_uri creator_uri
  = if negb (valid_identifier space_uri)
    then Err (Exn InvalidIdentifierError "invalid identifier")
    else if is_hex digest 256
    then Ok (Dict {[ "element_uri" := update_statement_uri stmt_uri digest;
                     "digest" := digest;
                     "creator_uri" := creator_uri;
                     "space_uri" := space_uri ]})
    else Err (Exn ValueError "not a hex string of the required length").
Proof.
  unfold build_from_update_properties. cbv zeta.
  rewrite verify_data_structure_steps.
  replace (_ !! "digest") with (Some digest) by reflexivity.
  replace (_ !! "space_uri") with (Some space_uri) by reflexivity.
  replace (_ !! "schema_uri") with (@None atom) by reflexivity.
  cbn [default from_option id truthy andb].
  destruct (valid_identifier space_uri); cbn [negb]; [|reflexivity].
  by destruct (is_hex digest 256).
Qed.

(** X4. [build_from_properties] returns a record exactly when the digest
    is 256-bit hex, [space_uri] is a valid identifier, and [schema_uri] is
    empty, omitted or a valid identifier; [creator_uri] is never
    validated. *)
Theorem build_from_properties_returns_iff
    (digest space_uri creator_uri schema_uri : atom) :
  (exists v, build_from_properties get_uri_for_statement valid_identifier is_hex
               digest space_uri creator_uri schema_uri = Ok v)
  <-> is_hex digest 256 = true
      /\ valid_identifier space_uri = true
      /\ (truthy schema_uri = true -> valid_identifier schema_uri = true).
Proof.
  rewrite build_from_properties_steps. split.
  - intros [v H].
    destruct (valid_identifier space_uri); [|discriminate]. cbn [negb] in H.
    destruct (truthy schema_uri); cbn [andb] in H.
    + destruct (valid_identifier schema_uri); [|discriminate]. cbn [negb] in H.
      by destruct (is_hex digest 256).
    + by destruct (is_hex digest 256).
  - intros (-> & -> & Hschema). cbn [negb].
    destruct (truthy schema_uri); cbn [andb]; [rewrite Hschema by done|]; eauto.
Qed.

(** X5. Neither builder ever fails with [StatementHashMissingError] or
    with a [KeyError]: the record they check always has its [digest] and
    [space_uri] keys, so a failure is an [InvalidIdentifierError] or the
    [ValueError] of the hex check. *)
Theorem builders_failures (e : exn)
    (stmt_uri digest space_uri creator_uri schema_uri : atom) :
  (build_from_properties get_uri_for_statement valid_identifier is_hex
     digest space_uri creator_uri schema_uri = Err e
   \/ build_from_update_properties update_statement_uri valid_identifier is_hex
        stmt_uri digest space_uri creator_uri = Err e) ->
  exn_cls e = InvalidIdentifierError \/ exn_cls e = ValueError.
Proof.
  rewrite build_from_properties_steps, build_from_update_properties_steps.
  intros [H|H].
  - destruct (negb _); [injection H as <-; by left|].
    destruct (_ && _); [injection H as <-; by left|].
    destruct (is_hex _ _); [discriminate|injection H as <-; by right].
  - destruct (negb _); [injection H as <-; by left|].
    destruct (is_hex _ _); [discriminate|injection H as <-; by right].
Qed.

(** X6. Whatever [build_from_properties] returns is a record that
    [verify_data_structure] accepts. *)
Theorem built_statement_is_well_formed
    (digest space_uri creator_uri schema_uri : atom) (v : value) :
  build_from_properties get_uri_for_statement valid_identifier is_hex
    digest space_uri creator_uri schema_uri = Ok v ->
  exists statement,
    v = Dict statement
    /\ verify_data_structure valid_identifier is_hex statement = Ok None_.
Proof.
  unfold build_from_properties. cbv zeta.
  destruct (verify_data_structure _ _ _) as [r|e] eqn:E; [|discriminate].
  cbn. intros [= <-]. eexists. split; [reflexivity|].
  rewrite E. f_equal. by eapply verify_data_structure_returns_None.
Qed.

(** X7. [build_from_update_properties] returns exactly when the digest is
    256-bit hex and [space_uri] is a valid identifier, and what it returns
    is the record of the new [element_uri], the digest, the creator and
    the space: it has no [schema_uri] key, and it passes
    [verify_data_structure]. *)
Theorem build_from_update_properties_outcome
    (stmt_uri digest space_uri creator_uri : atom) :
  ((exists v, build_from_update_properties update_statement_uri valid_identifier
                is_hex stmt_uri digest space_uri creator_uri = Ok v)
   <-> is_hex digest 256 = true /\ valid_identifier space_uri = true)
  /\ (forall v,
        build_from_update_properties update_statement_uri valid_identifier
          is_hex stmt_uri digest space_uri creator_uri = Ok v ->
        exists statement,
          v = Dict statement
          /\ dom statement
             = ({[ "element_uri"; "digest"; "creator_uri"; "space_uri" ]} : gset string)
          /\ statement !! "element_uri" = Some (update_statement_uri stmt_uri digest)
          /\ statement !! "digest" = Some digest
          /\ statement !! "creator_uri" = Some creator_uri
          /\ statement !! "space_uri" = Some space_uri
          /\ statement !! "schema_uri" = None
          /\ verify_data_structure valid_identifier is_hex statement = Ok None_).
Proof.
  split.
  - rewrite build_from_update_properties_steps. split.
    + intros [v H]. destruct (valid_identifier space_uri); [|discriminate].
      by destruct (is_hex digest 256).
    + intros [-> ->]. cbn. eauto.
  - intros v. unfold build_from_update_properties. cbv zeta.
    destruct (verify_data_structure _ _ _) as [r|e] eqn:E; [|discriminate].
    cbn. intros [= <-]. eexists. split; [reflexivity|].
    split; [by rewrite !dom_insert_L, dom_singleton_L; set_solver|].
    do 5 (split; [reflexivity|]).
    rewrite E. f_equal. by eapply verify_data_structure_returns_None.
Qed.

(** *** The verification, outcome by outcome *)

Lemma verdict_inj (b b' : bool) (m m' : string) :
  verdict b m = verdict b' m' -> b = b' /\ m = m'.
Proof.
  intros H.
  pose proof (f_equal (fun v => getitem v "is_valid") H) as Hb.
  pose proof (f_equal (fun v => getitem v "message") H) as Hm.
  cbv beta in Hb, Hm.
  change (Ok (PyBool b) = Ok (PyBool b')) in Hb.
  change (Ok (PyStr m) = Ok (PyStr m')) in Hm.
  split; congruence.
Qed.

Lemma Ok_verdict_inj (b b' : bool) (m m' : string) :
  Ok (verdict b m) = Ok (verdict b' m') -> b = b' /\ m = m'.
Proof.
  intros H. apply verdict_inj.
  exact (f_equal (fun r => match r with Ok v => v | Err _ => None_ end) H).
Qed.

Lemma ne_false_eq (a b : atom) : ne a b = false -> a = b.
Proof.
  unfold ne. intros H. apply negb_false_iff in H.
  by apply bool_decide_eq_true_1 in H.
Qed.

Lemma check_supplied_passes (a : atom) (k m : string) (d : gmap string atom) :
  check_supplied a k m (Dict d) = Ok None
  <-> (truthy a = true -> d !! k = Some a).
Proof.
  unfold check_supplied. destruct (truthy a); [|by split].
  cbn [getitem]. unfold dict_getitem.
  destruct (d !! k) as [r|] eqn:E; cbn [mbind result_bind].
  - destruct (ne a r) eqn:N.
    + split; [discriminate|]. intros H. specialize (H eq_refl).
      injection H as ->. by rewrite ne_same in N.
    + apply ne_false_eq in N as ->. by split.
  - split; [discriminate|]. intros H. by specialize (H eq_refl).
Qed.

(** All six checks pass exactly on a record that holds the supplied
    digest, is not revoked, and holds each supplied property. *)
Lemma checks_pass_iff (stmt_uri digest creator space_uri schema_uri : atom)
    (remote : value) :
  first_failure (spec_checks stmt_uri digest creator space_uri schema_uri remote)
  = Ok None
  <-> exists d,
        remote = Dict d
        /\ d !! "digest" = Some digest
        /\ truthy (default PyNone (d !! "revoked")) = false
        /\ (truthy creator = true -> d !! "creator_uri" = Some creator)
        /\ (truthy space_uri = true -> d !! "space_uri" = Some space_uri)
        /\ (truthy schema_uri = true -> d !! "schema_uri" = Some schema_uri).
Proof.
  split.
  - unfold spec_checks, check_found, check_digest.
    cbn [first_failure]. destruct (truth remote); [|discriminate].
    destruct remote as [[| |]|d|]; cbn [getitem mbind result_bind]; try discriminate.
    unfold dict_getitem. destruct (d !! "digest") as [rd|] eqn:Hd;
      cbn [mbind result_bind]; [|discriminate].
    destruct (ne digest rd) eqn:N; [discriminate|].
    apply ne_false_eq in N as <-.
    rewrite check_revoked_record.
    destruct (truthy (default PyNone (d !! "revoked"))) eqn:R; [discriminate|].
    destruct (check_supplied creator _ _ _) as [[?|]|?] eqn:C1; try discriminate.
    destruct (check_supplied space_uri _ _ _) as [[?|]|?] eqn:C2; try discriminate.
    destruct (check_supplied schema_uri _ _ _) as [[?|]|?] eqn:C3; try discriminate.
    intros _. exists d. do 3 (split; [done|]).
    split; [exact (proj1 (check_supplied_passes _ _ _ _) C1)|].
    split; [exact (proj1 (check_supplied_passes _ _ _ _) C2)|].
    exact (proj1 (check_supplied_passes _ _ _ _) C3).
  - intros (d & -> & Hd & R & C1 & C2 & C3).
    rewrite first_failure_digest_ok by done.
    rewrite check_revoked_record, R.
    cbn [first_failure].
    rewrite (proj2 (check_supplied_passes creator "creator_uri" _ d) C1).
    rewrite (proj2 (check_supplied_passes space_uri "space_uri" _ d) C2).
    by rewrite (proj2 (check_supplied_passes schema_uri "schema_uri" _ d) C3).
Qed.

(** X8. [verify_against_properties] finds the statement valid exactly when
    the fetch returns a record that holds the supplied digest, is not
    flagged revoked (a record without a [revoked] field is not), and
    holds every property that was supplied non-empty; the record need not
    have the fields of the properties left out. *)
Theorem verify_valid_iff (stmt_uri digest creator space_uri schema_uri : atom) :
  (exists message,
     verify_against_properties fetch stmt_uri digest creator space_uri schema_uri
     = Ok (verdict true message))
  <-> exists d,
        fetch stmt_uri = Ok (Dict d)
        /\ d !! "digest" = Some digest
        /\ truthy (default PyNone (d !! "revoked")) = false
        /\ (truthy creator = true -> d !! "creator_uri" = Some creator)
        /\ (truthy space_uri = true -> d !! "space_uri" = Some space_uri)
        /\ (truthy schema_uri = true -> d !! "schema_uri" = Some schema_uri).
Proof.
  rewrite verify_refines. unfold spec_verify. split.
  - intros [message H].
    assert (Hconv : forall e, converted e <> Ok (verdict true message)).
    { intros e. unfold converted. destruct (isinstance_Exception e); [|done].
      intros Hv. by apply Ok_verdict_inj in Hv as [? _]. }
    destruct (fetch stmt_uri) as [remote|e]; [|by apply Hconv in H].
    destruct (first_failure _) as [[m|]|e] eqn:F.
    + by apply Ok_verdict_inj in H as [? _].
    + apply checks_pass_iff in F as (d & -> & ?). by exists d.
    + by apply Hconv in H.
  - intros (d & -> & H). 
    assert (F : first_failure
                  (spec_checks stmt_uri digest creator space_uri schema_uri (Dict d))
                = Ok None) by (apply checks_pass_iff; eauto).
    rewrite F. eauto.
Qed.

(** X9. The only exceptions [verify_against_properties] lets through are
    those the fetch itself raised and that are not [Exception]s; and
    whenever it returns, it returns a dictionary [{is_valid, message}]. *)
Theorem verify_raises_iff (stmt_uri digest creator space_uri schema_uri : atom) :
  (forall e,
     verify_against_properties fetch stmt_uri digest creator space_uri schema_uri
     = Err e
     <-> fetch stmt_uri = Err e /\ isinstance_Exception e = false)
  /\ (forall v,
        verify_against_properties fetch stmt_uri digest creator space_uri schema_uri
        = Ok v ->
        exists is_valid message, v = verdict is_valid message).
Proof.
  rewrite verify_refines. unfold spec_verify.
  destruct (fetch stmt_uri) as [remote|e0].
  - destruct (first_failure _) as [[m|]|e1] eqn:F.
    + split; [intros e; split; [discriminate|by intros [? _]]|].
      intros v [= <-]. eauto.
    + split; [intros e; split; [discriminate|by intros [? _]]|].
      intros v [= <-]. eauto.
    + unfold converted. rewrite (checks_raise_Exception _ _ _ _ _ _ _ F).
      split; [intros e; split; [discriminate|by intros [? _]]|].
      intros v [= <-]. eauto.
  - unfold converted. destruct (isinstance_Exception e0) eqn:E.
    + split; [|intros v [= <-]; eauto].
      intros e. split; [discriminate|]. intros [[= ->] He]. congruence.
    + split; [|discriminate].
      intros e. split; [by intros [= ->]|]. by intros [[= ->] _].
Qed.

(** X10. Whatever the fetch returns that counts as false ([None], an empty
    record, an empty string) is reported as not found, with the digest
    quoted in the message, whatever creator, space and schema were
    supplied. *)
Theorem verify_nothing_found_for_falsy
    (stmt_uri digest creator space_uri schema_uri : atom) (remote : value) :
  fetch stmt_uri = Ok remote ->
  truth remote = false ->
  verify_against_properties fetch stmt_uri digest creator space_uri schema_uri
  = Ok (verdict false
          ("Statement details for " +:+ quote +:+ str digest +:+ quote +:+ " not found.")).
Proof.
  intros Hfetch Hfalsy. rewrite verify_refines. unfold spec_verify.
  rewrite Hfetch. unfold spec_checks, check_found. by rewrite Hfalsy.
Qed.

(** X11. When the fetch returns something that is not a record with a
    [digest] field (a record without the key, or a value that cannot be
    subscripted), the failed lookup is reported as
    ["Error verifying properties: <error>"], not as a digest mismatch. *)
Theorem verify_malformed_record
    (stmt_uri digest creator space_uri schema_uri : atom) (remote : value) (e : exn) :
  fetch stmt_uri = Ok remote ->
  truth remote = true ->
  getitem remote "digest" = Err e ->
  verify_against_properties fetch stmt_uri digest creator space_uri schema_uri
  = Ok (verdict false ("Error verifying properties: " +:+ exn_str e)).
Proof.
  intros Hfetch Htruth Hget. rewrite verify_refines. unfold spec_verify.
  rewrite Hfetch. unfold spec_checks, check_found, check_digest.
  rewrite Htruth, Hget. cbn [first_failure mbind result_bind].
  unfold converted. by rewrite (getitem_raises_Exception _ _ _ Hget).
Qed.

End collaborators.

(** *** Worked examples *)

(** The remote record of the examples, asked about with its own digest
    and nothing else, is valid. *)
Example verify_matching_digest :
  verify_against_properties sample.fetch_found
    (PyStr "stmt:cord:x") (PyStr "0xAA") PyNone PyNone PyNone
  = Ok (verdict true
          "Digest properties provided are valid and match the statement details.").
Proof. reflexivity. Qed.

Example verify_other_digest :
  verify_against_properties sample.fetch_found
    (PyStr "stmt:cord:x") (PyStr "0xBB") PyNone PyNone PyNone
  = Ok (verdict false "Digest does not match with Statement Digest.").
Proof. reflexivity. Qed.

(** Nothing found: the digest is quoted in the message. *)
Example verify_nothing_found :
  verify_against_properties (fun _ => Ok None_)
    (PyStr "stmt:cord:x") (PyStr "0xAA") PyNone PyNone PyNone
  = Ok (verdict false
          ("Statement details for " +:+ quote +:+ "0xAA" +:+ quote +:+ " not found.")).
Proof. reflexivity. Qed.

(** A record without a [digest] field: the [KeyError] becomes a verdict. *)
Example verify_record_without_digest :
  verify_against_properties (fun _ => Ok (Dict {[ "revoked" := PyBool true ]}))
    (PyStr "stmt:cord:x") (PyStr "0xAA") PyNone PyNone PyNone
  = Ok (verdict false "Error verifying properties: 'digest'").
Proof. reflexivity. Qed.

(** A revoked record with a matching digest, asked about with a creator,
    a space and a schema that all differ from the remote ones. *)
Lemma verify_checks_in_order_witness :
  verify_against_properties sample.fetch_revoked
    (PyStr "stmt:cord:x") (PyStr "0xAA")
    (PyStr "did:other") (PyStr "space:other") (PyStr "schema:other")
  = Ok (verdict false ("Statement " +:+ quote +:+ "stmt:cord:x" +:+ quote +:+ " Revoked.")).
Proof.
  apply (proj2 (verify_checks_in_order sample.fetch_revoked
                  (PyStr "stmt:cord:x") (PyStr "0xAA")) sample.revoked_remote);
    reflexivity.
Defined.

(** C2, as stated, fails: a fetch cancelled while it is awaited raises
    [CancelledError], which [except Exception] does not handle, so
    [verify_against_properties] raises instead of returning a verdict. *)
Lemma verify_propagates_cancellation :
  verify_against_properties sample.fetch_cancelled
    (PyStr "stmt:cord:x") (PyStr "0xAA") PyNone PyNone PyNone
  = Err (Exn CancelledError "").
Proof. reflexivity. Qed.

(** A fetch that fails with an [OSError] gives a verdict. *)
Lemma verify_converts_Exceptions_witness :
  exists is_valid message,
    verify_against_properties sample.fetch_unreachable
      (PyStr "stmt:cord:x") (PyStr "0xAA") PyNone PyNone PyNone
    = Ok (verdict is_valid message).
Proof.
  apply (proj1 (verify_converts_Exceptions sample.fetch_unreachable
                  (PyStr "stmt:cord:x") (PyStr "0xAA") PyNone PyNone PyNone)).
  intros e [= <-]. reflexivity.
Defined.

(** C3, as stated, fails for the empty string: the record is found, the
    digests match, the record is not revoked and the supplied creator
    [''] differs from the remote ['did:c1'], yet the statement is found
    valid. *)
Lemma empty_creator_not_compared :
  sample.fetch_found (PyStr "stmt:cord:x") = Ok (Dict sample.remote)
  /\ sample.remote !! "digest" = Some (PyStr "0xAA")
  /\ sample.remote !! "revoked" = Some (PyBool false)
  /\ sample.remote !! "creator_uri" = Some (PyStr "did:c1")
  /\ PyStr "" ≠ PyStr "did:c1"
  /\ verify_against_properties sample.fetch_found
       (PyStr "stmt:cord:x") (PyStr "0xAA") (PyStr "") PyNone PyNone
     = Ok (verdict true
             "Digest properties provided are valid and match the statement details.").
Proof. repeat split; try reflexivity. discriminate. Qed.

Lemma verify_creator_mismatch_witness :
  verify_against_properties sample.fetch_found
    (PyStr "stmt:cord:x") (PyStr "0xAA") (PyStr "did:other") PyNone PyNone
  = Ok (verdict false "Statement and Digest creator does not match.").
Proof.
  apply (proj1 (verify_creator_mismatch sample.fetch_found
                  (PyStr "stmt:cord:x") (PyStr "0xAA") (PyStr "did:other")
                  PyNone PyNone sample.remote (PyStr "did:c1")
                  eq_refl eq_refl eq_refl eq_refl));
    [reflexivity|discriminate].
Defined.

(** C4, as stated, fails for the empty string: the record is returned
    with [schema_uri] set to [None], not to the input ['']. *)
Lemma empty_schema_uri_becomes_None :
  exists statement,
    build_from_properties sample.derive_uri sample.any_identifier sample.any_hex
      (PyStr "0xAA") (PyStr "space:s1") (PyStr "did:c1") (PyStr "")
    = Ok (Dict statement)
    /\ statement !! "schema_uri" = Some PyNone
    /\ PyNone ≠ PyStr "".
Proof. eexists. split; [reflexivity|]. split; [reflexivity|discriminate]. Qed.

Lemma build_from_properties_fields_witness :
  exists statement,
    build_from_properties sample.derive_uri sample.any_identifier sample.any_hex
      (PyStr "0xAA") (PyStr "space:s1") (PyStr "did:c1") (PyStr "schema:x")
    = Ok (Dict statement)
    /\ statement !! "element_uri" = Some (PyStr "stmt:0xAA:space:s1:did:c1")
    /\ statement !! "digest" = Some (PyStr "0xAA")
    /\ statement !! "creator_uri" = Some (PyStr "did:c1")
    /\ statement !! "space_uri" = Some (PyStr "space:s1")
    /\ statement !! "schema_uri" = Some (PyStr "schema:x").
Proof.
  apply (build_from_properties_fields sample.derive_uri sample.any_identifier
           sample.any_hex (PyStr "0xAA") (PyStr "space:s1") (PyStr "did:c1")
           (PyStr "schema:x"));
    reflexivity.
Defined.

Lemma update_element_uri_independent_witness :
  exists r1 r2,
    build_from_update_properties sample.update_uri sample.any_identifier sample.any_hex
      (PyStr "stmt:old") (PyStr "0xBB") (PyStr "space:s1") (PyStr "did:c1") = Ok r1
    /\ build_from_update_properties sample.update_uri sample.any_identifier sample.any_hex
         (PyStr "stmt:old") (PyStr "0xBB") (PyStr "space:s2") (PyStr "did:c2") = Ok r2
    /\ getitem r1 "element_uri" = Ok (PyStr "stmt:old:0xBB")
    /\ getitem r2 "element_uri" = getitem r1 "element_uri".
Proof.
  exists (Dict {[ "element_uri" := PyStr "stmt:old:0xBB"; "digest" := PyStr "0xBB";
                  "creator_uri" := PyStr "did:c1"; "space_uri" := PyStr "space:s1" ]}),
         (Dict {[ "element_uri" := PyStr "stmt:old:0xBB"; "digest" := PyStr "0xBB";
                  "creator_uri" := PyStr "did:c2"; "space_uri" := PyStr "space:s2" ]}).
  refine ((fun H1 H2 =>
             conj H1 (conj H2
               (update_element_uri_independent sample.update_uri
                  sample.any_identifier sample.any_hex
                  (PyStr "stmt:old") (PyStr "0xBB")
                  (PyStr "space:s1") (PyStr "did:c1")
                  (PyStr "space:s2") (PyStr "did:c2") _ _ H1 H2))) _ _);
    reflexivity.
Defined.

Lemma missing_space_uri_is_key_error_witness :
  verify_data_structure sample.any_identifier sample.any_hex
    {[ "digest" := PyStr "0xAA" ]}
  = Err (key_error "space_uri")
  /\ exn_cls (key_error "space_uri") = KeyError.
Proof.
  apply (missing_space_uri_is_key_error sample.any_identifier sample.any_hex
           {[ "digest" := PyStr "0xAA" ]} (PyStr "0xAA"));
    reflexivity.
Defined.

(** *** Further worked examples *)

Lemma falsy_schema_uri_not_checked_witness :
  verify_data_structure sample.any_identifier sample.any_hex
    (<[ "schema_uri" := PyStr "" ]>
       {[ "digest" := PyStr "0xAA"; "space_uri" := PyStr "space:s1" ]})
  = verify_data_structure sample.any_identifier sample.any_hex
      (delete "schema_uri"
         {[ "digest" := PyStr "0xAA"; "space_uri" := PyStr "space:s1" ]}).
Proof.
  exact (falsy_schema_uri_not_checked sample.any_identifier sample.any_hex
           {[ "digest" := PyStr "0xAA"; "space_uri" := PyStr "space:s1" ]}
           (PyStr "") eq_refl).
Defined.

Lemma builders_failures_witness :
  exn_cls (Exn ValueError "not a hex string of the required length")
  = InvalidIdentifierError
  \/ exn_cls (Exn ValueError "not a hex string of the required length")
     = ValueError.
Proof.
  exact (builders_failures sample.derive_uri sample.update_uri
           sample.any_identifier sample.no_hex
           (Exn ValueError "not a hex string of the required length")
           (PyStr "stmt:old") (PyStr "xyz") (PyStr "space:s1") (PyStr "did:c1")
           PyNone (or_introl eq_refl)).
Defined.

Lemma built_statement_is_well_formed_witness :
  exists statement,
    Dict {[ "element_uri" := PyStr "stmt:0xAA:space:s1:did:c1";
            "digest" := PyStr "0xAA";
            "creator_uri" := PyStr "did:c1";
            "space_uri" := PyStr "space:s1";
            "schema_uri" := PyNone ]} = Dict statement
    /\ verify_data_structure sample.any_identifier sample.any_hex statement
       = Ok None_.
Proof.
  exact (built_statement_is_well_formed sample.derive_uri sample.any_identifier
           sample.any_hex (PyStr "0xAA") (PyStr "space:s1") (PyStr "did:c1")
           PyNone _ eq_refl).
Defined.

Lemma build_from_update_properties_outcome_witness :
  exists statement,
    Dict {[ "element_uri" := PyStr "stmt:old:0xBB";
            "digest" := PyStr "0xBB";
            "creator_uri" := PyStr "did:c1";
            "space_uri" := PyStr "space:s1" ]} = Dict statement
    /\ dom statement
       = ({[ "element_uri"; "digest"; "creator_uri"; "space_uri" ]} : gset string)
    /\ statement !! "element_uri" = Some (PyStr "stmt:old:0xBB")
    /\ statement !! "digest" = Some (PyStr "0xBB")
    /\ statement !! "creator_uri" = Some (PyStr "did:c1")
    /\ statement !! "space_uri" = Some (PyStr "space:s1")
    /\ statement !! "schema_uri" = None
    /\ verify_data_structure sample.any_identifier sample.any_hex statement
       = Ok None_.
Proof.
  exact (proj2 (build_from_update_properties_outcome sample.update_uri
                  sample.any_identifier sample.any_hex
                  (PyStr "stmt:old") (PyStr "0xBB") (PyStr "space:s1")
                  (PyStr "did:c1")) _ eq_refl).
Defined.

Lemma verify_raises_iff_witness :
  exists is_valid message,
    verdict true
      "Digest properties provided are valid and match the statement details."
    = verdict is_valid message.
Proof.
  exact (proj2 (verify_raises_iff sample.fetch_found
                  (PyStr "stmt:cord:x") (PyStr "0xAA") PyNone PyNone PyNone)
           _ eq_refl).
Defined.

Lemma verify_nothing_found_for_falsy_witness :
  verify_against_properties sample.fetch_empty
    (PyStr "stmt:cord:x") (PyStr "0xAA") (PyStr "did:c1") PyNone PyNone
  = Ok (verdict false
          ("Statement details for " +:+ quote +:+ "0xAA" +:+ quote +:+ " not found.")).
Proof.
  exact (verify_nothing_found_for_falsy sample.fetch_empty
           (PyStr "stmt:cord:x") (PyStr "0xAA") (PyStr "did:c1") PyNone PyNone
           (Dict ∅) eq_refl eq_refl).
Defined.

Lemma verify_malformed_record_witness :
  verify_against_properties sample.fetch_no_digest
    (PyStr "stmt:cord:x") (PyStr "0xAA") PyNone PyNone PyNone
  = Ok (verdict false ("Error verifying properties: " +:+ "'digest'")).
Proof.
  exact (verify_malformed_record sample.fetch_no_digest
           (PyStr "stmt:cord:x") (PyStr "0xAA") PyNone PyNone PyNone
           (Dict {[ "creator_uri" := PyStr "did:c1" ]}) (key_error "digest")
           eq_refl eq_refl eq_refl).
Defined.

End statement_spec.

(** ** Properties of config.py *)

Module config_spec.

Import config.

Section transport.

Variable load_type_registry_file : string -> result value.
Variable SubstrateInterface : string -> gmap string value -> value -> result nat.

Lemma world_eta (w : world) : World (configuration w) (closed w) (logged w) = w.
Proof. by destruct w. Qed.

Lemma or_empty_api (api : value) :
  or_empty (Some {[ "api" := api ]}) = {[ "api" := api ]}.
Proof.
  unfold or_empty. rewrite bool_decide_eq_false_2; [done|].
  apply map_non_empty_singleton.
Qed.

(** [connect] step by step: the registry is loaded, the connection is
    opened, and only then is the handle stored; an exception of either of
    the first two steps is logged when it is a
    [SubstrateRequestException], and is raised again in every case. *)
Lemma connect_steps (url : string) (no_init_warn : bool)
    (api_options : gmap string value) (w : world) :
  connect load_type_registry_file SubstrateInterface url no_init_warn api_options w =
  match custom_type ← load_type_registry_file "custom-type.json";
        construct SubstrateInterface url api_options custom_type with
  | Ok h =>
      (Ok (Substrate h),
       World {[ "api" := Substrate h ]} (closed w) (logged w))
  | Err e =>
      (Err e,
       if isinstance_SubstrateRequestException e
       then World (configuration w) (closed w)
              (("Error connecting to blockchain: " +:+ exn_str e) :: logged w)
       else w)
  end.
Proof.
  unfold connect, call_, try_except_, then_, pure, invoke, init, call_,
    ConfigService_set, logger_info.
  destruct (load_type_registry_file "custom-type.json") as [custom_type|e];
    cbn [mbind result_bind eval].
  - destruct (construct _ _ _ _) as [h|e]; cbn [eval call].
    + by rewrite or_empty_api.
    + by destruct (isinstance_SubstrateRequestException e).
  - by destruct (isinstance_SubstrateRequestException e).
Qed.

Lemma disconnect_not_connected (w : world) :
  configuration w !! "api" = None -> disconnect w = (Ok False_, w).
Proof.
  intros H. unfold disconnect, call_, then_, ConfigService_is_set.
  rewrite H. reflexivity.
Qed.

Lemma disconnect_connected (w : world) (h : nat) :
  configuration w !! "api" = Some (Substrate h) ->
  disconnect w
  = (Ok True_, World (delete "api" (configuration w)) (h :: closed w) (logged w)).
Proof.
  intros H. unfold disconnect, call_, then_, ConfigService_is_set,
    ConfigService_get.
  rewrite H, bool_decide_eq_true_2 by done.
  cbn [negb If_ pure]. rewrite H. reflexivity.
Qed.

Lemma disconnect_not_a_handle (w : world) (api : value) :
  configuration w !! "api" = Some api ->
  (forall h, api <> Substrate h) ->
  exists e,
    disconnect w
    = (Err e, World (delete "api" (configuration w)) (closed w) (logged w))
    /\ exn_cls e = AttributeError.
Proof.
  intros H Hobj. unfold disconnect, call_, then_, ConfigService_is_set,
    ConfigService_get.
  rewrite H, bool_decide_eq_true_2 by done.
  cbn [negb If_ pure]. rewrite H.
  destruct api as [[| |]|d|h]; [..|by destruct (Hobj h)];
    eexists; split; reflexivity.
Qed.

(** C7, amended. [disconnect] does not raise when the [api] entry is
    absent or holds a connection handle.  With no entry stored under [api]
    it returns [False] and leaves the world as it is; with a handle stored
    it removes the [api] entry, closes the handle and returns [True], and
    a second call right after returns [False] and changes nothing.  With
    an [api] entry that is not a connection handle it removes the entry
    and then raises the [AttributeError] of the missing [close]. *)
Theorem disconnect_outcomes (w : world) :
  (configuration w !! "api" = None -> disconnect w = (Ok False_, w))
  /\ (forall h,
        configuration w !! "api" = Some (Substrate h) ->
        disconnect w
        = (Ok True_,
           World (delete "api" (configuration w)) (h :: closed w) (logged w))
        /\ disconnect (disconnect w).2 = (Ok False_, (disconnect w).2))
  /\ (forall api,
        configuration w !! "api" = Some api ->
        (forall h, api <> Substrate h) ->
        exists e,
          disconnect w
          = (Err e, World (delete "api" (configuration w)) (closed w) (logged w))
          /\ exn_cls e = AttributeError).
Proof.
  split; [apply disconnect_not_connected|]. split.
  - intros h H. rewrite (disconnect_connected w h H). split; [done|].
    apply disconnect_not_connected. cbn. apply lookup_delete_eq.
  - apply disconnect_not_a_handle.
Qed.

(** C8, amended. When [connect] fails, the exception is the one the
    registry load or the transport raised, the configuration state is the
    one before the call, so that when it held no [api] entry a following
    [disconnect] returns [False]; the exception is logged when it is a
    [SubstrateRequestException] and is not logged otherwise. *)
Theorem connect_failure_keeps_configuration (url : string) (no_init_warn : bool)
    (api_options : gmap string value) (w w' : world) (e : exn) :
  connect load_type_registry_file SubstrateInterface url no_init_warn api_options w
  = (Err e, w') ->
  (load_type_registry_file "custom-type.json" = Err e
   \/ exists custom_type,
        load_type_registry_file "custom-type.json" = Ok custom_type
        /\ construct SubstrateInterface url api_options custom_type = Err e)
  /\ configuration w' = configuration w
  /\ closed w' = closed w
  /\ logged w'
     = (if isinstance_SubstrateRequestException e
        then ("Error connecting to blockchain: " +:+ exn_str e) :: logged w
        else logged w)
  /\ (configuration w !! "api" = None -> disconnect w' = (Ok False_, w')).
Proof.
  rewrite connect_steps. intros H.
  assert (Hfrom : load_type_registry_file "custom-type.json" = Err e
                  \/ exists custom_type,
                       load_type_registry_file "custom-type.json" = Ok custom_type
                       /\ construct SubstrateInterface url api_options custom_type
                          = Err e).
  { destruct (load_type_registry_file "custom-type.json") as [custom_type|e0];
      cbn [mbind result_bind] in H.
    - right. exists custom_type. split; [done|].
      destruct (construct _ _ _ _); [discriminate|]. by injection H as -> _.
    - left. by injection H as -> _. }
  assert (Hw : w' = if isinstance_SubstrateRequestException e
                    then World (configuration w) (closed w)
                           (("Error connecting to blockchain: " +:+ exn_str e)
                              :: logged w)
                    else w).
  { destruct (_ ≫= _) as [h|e0]; [discriminate|]. by injection H as -> <-. }
  assert (Hcfg : configuration w' = configuration w).
  { rewrite Hw. by destruct (isinstance_SubstrateRequestException e). }
  split; [exact Hfrom|]. split; [exact Hcfg|].
  split; [rewrite Hw; by destruct (isinstance_SubstrateRequestException e)|].
  split; [rewrite Hw; by destruct (isinstance_SubstrateRequestException e)|].
  intros Hnone. apply disconnect_not_connected. by rewrite Hcfg.
Qed.

(** C10. After a successful [connect] the configuration state is exactly
    [{'api': handle}], [handle] being the value returned: [init] replaces
    the state, so no key stored before the call is left. *)
Theorem connect_success_configuration (url : string) (no_init_warn : bool)
    (api_options : gmap string value) (w w' : world) (v : value) :
  connect load_type_registry_file SubstrateInterface url no_init_warn api_options w
  = (Ok v, w') ->
  (exists h, v = Substrate h)
  /\ configuration w' = {[ "api" := v ]}
  /\ (forall key, key ≠ "api" -> configuration w' !! key = None).
Proof.
  rewrite connect_steps. intros H.
  destruct (_ ≫= _) as [h|e]; [|discriminate].
  injection H as <- <-. cbn. split; [eauto|]. split; [done|].
  intros key Hkey. by apply lookup_singleton_ne.
Qed.

(** *** Connecting and disconnecting, outcome by outcome *)

(** X12. [disconnect] touches nothing but the [api] entry: every other
    key of the configuration stays, nothing is logged, and the only
    connection it can close is the one stored under [api].  The entry is
    removed before the handle is closed, so no [api] entry is left
    afterwards whatever the outcome. *)
Theorem disconnect_frame (w : world) :
  configuration (disconnect w).2 = delete "api" (configuration w)
  /\ logged (disconnect w).2 = logged w
  /\ (closed (disconnect w).2 = closed w
      \/ exists h, configuration w !! "api" = Some (Substrate h)
                   /\ closed (disconnect w).2 = h :: closed w).
Proof.
  destruct (configuration w !! "api") as [api|] eqn:E.
  - destruct api as [a|d|h].
    + assert (H : (disconnect w).2
                  = World (delete "api" (configuration w)) (closed w) (logged w)).
      { unfold disconnect, call_, then_, ConfigService_is_set, ConfigService_get.
        rewrite E, bool_decide_eq_true_2 by done.
        cbn [negb If_ pure]. rewrite E. by destruct a. }
      rewrite H. cbn. auto.
    + assert (H : (disconnect w).2
                  = World (delete "api" (configuration w)) (closed w) (logged w)).
      { unfold disconnect, call_, then_, ConfigService_is_set, ConfigService_get.
        rewrite E, bool_decide_eq_true_2 by done.
        cbn [negb If_ pure]. by rewrite E. }
      rewrite H. cbn. auto.
    + rewrite (disconnect_connected w h E). cbn.
      do 2 (split; [done|]). right. by exists h.
  - rewrite (disconnect_not_connected w E). cbn.
    rewrite delete_id by done. auto.
Qed.

(** X13. A [disconnect] right after a successful [connect] returns [True],
    closes the very handle [connect] returned and no other, and leaves the
    configuration empty. *)
Theorem connect_then_disconnect (url : string) (no_init_warn : bool)
    (api_options : gmap string value) (w w' : world) (v : value) :
  connect load_type_registry_file SubstrateInterface url no_init_warn api_options w
  = (Ok v, w') ->
  exists h,
    v = Substrate h
    /\ disconnect w' = (Ok True_, World ∅ (h :: closed w) (logged w)).
Proof.
  rewrite connect_steps. intros H.
  destruct (_ ≫= _) as [h|e]; [|discriminate].
  injection H as <- <-. exists h. split; [done|].
  rewrite (disconnect_connected _ h) by apply lookup_singleton_eq.
  cbn. by rewrite delete_singleton_eq.
Qed.

(** X14. Once the registry is loaded, an [api_options] that has a key
    [url] or [type_registry] makes [connect] raise the [TypeError] of the
    repeated keyword argument: the transport is not asked, nothing is
    stored and nothing is logged. *)
Theorem connect_repeated_keyword (url : string) (no_init_warn : bool)
    (api_options : gmap string value) (w : world) (custom_type : value) :
  load_type_registry_file "custom-type.json" = Ok custom_type ->
  is_Some (api_options !! "url") \/ is_Some (api_options !! "type_registry") ->
  exists e,
    connect load_type_registry_file SubstrateInterface url no_init_warn api_options w
    = (Err e, w)
    /\ exn_cls e = TypeError.
Proof.
  intros Hload Hkey. rewrite connect_steps, Hload.
  cbn [mbind result_bind]. unfold construct.
  destruct (decide (is_Some (api_options !! "url"))) as [Hurl|Hurl].
  - rewrite bool_decide_eq_true_2 by done. eexists. split; reflexivity.
  - rewrite bool_decide_eq_false_2 by done.
    destruct Hkey as [?|Hreg]; [done|].
    rewrite bool_decide_eq_true_2 by done. eexists. split; reflexivity.
Qed.

(** X15. [connect] succeeds exactly when the registry file loads, no key
    of [api_options] repeats [url] or [type_registry], and the transport
    opens the connection; it then returns that connection.  The state
    before the call and [no_init_warn] play no part. *)
Theorem connect_succeeds_iff (url : string) (no_init_warn : bool)
    (api_options : gmap string value) (w : world) (h : nat) :
  (exists w',
     connect load_type_registry_file SubstrateInterface url no_init_warn api_options w
     = (Ok (Substrate h), w'))
  <-> exists custom_type,
        load_type_registry_file "custom-type.json" = Ok custom_type
        /\ api_options !! "url" = None
        /\ api_options !! "type_registry" = None
        /\ SubstrateInterface url api_options custom_type = Ok h.
Proof.
  rewrite connect_steps. split.
  - intros [w' H].
    destruct (load_type_registry_file "custom-type.json") as [custom_type|e];
      cbn [mbind result_bind] in H; [|discriminate].
    exists custom_type. split; [done|]. unfold construct in H.
    destruct (api_options !! "url") as [?|] eqn:Hurl.
    { rewrite bool_decide_eq_true_2 in H by done. discriminate. }
    rewrite bool_decide_eq_false_2 in H by (by intros [? ?]).
    destruct (api_options !! "type_registry") as [?|] eqn:Hreg.
    { rewrite bool_decide_eq_true_2 in H by done. discriminate. }
    rewrite bool_decide_eq_false_2 in H by (by intros [? ?]).
    destruct (SubstrateInterface _ _ _) as [h'|e]; [|discriminate].
    by injection H as -> _.
  - intros (custom_type & -> & Hurl & Hreg & Hopen).
    cbn [mbind result_bind]. unfold construct. rewrite Hurl, Hreg.
    rewrite !bool_decide_eq_false_2 by (by intros [? ?]).
    rewrite Hopen. eauto.
Qed.

(** X16. An [init] whose mapping has no [api] key (or no mapping at all)
    forgets a stored connection without closing it: the next
    [disconnect] returns [False] and the set of closed connections is the
    one before [init]. *)
Theorem init_forgets_connection (configs : option (gmap string value)) (w : world) :
  (forall c, configs = Some c -> c !! "api" = None) ->
  disconnect (init configs w).2 = (Ok False_, (init configs w).2)
  /\ closed (init configs w).2 = closed w.
Proof.
  intros Hnone. split; [|reflexivity].
  apply disconnect_not_connected. cbn. unfold or_empty.
  destruct configs as [c|]; [|done].
  destruct (bool_decide (c = ∅)); [done|]. by apply Hnone.
Qed.

End transport.

(** *** Worked examples *)

Example init_replaces :
  config.init (Some {[ "log_level" := Atom (PyStr "debug") ]}) sample.connected
  = (Ok None_, sample.configured).
Proof. reflexivity. Qed.

(** C7, as stated, fails: [init] stores any mapping, and after
    [init({'api': 'ws://127.0.0.1:9944'})] a [disconnect] finds an [api]
    entry, removes it, and raises because a string has no [close]. *)
Lemma disconnect_raises_on_non_handle :
  init (Some {[ "api" := Atom (PyStr "ws://127.0.0.1:9944") ]}) sample.fresh
  = (Ok None_,
     World {[ "api" := Atom (PyStr "ws://127.0.0.1:9944") ]} [] [])
  /\ disconnect
       (World {[ "api" := Atom (PyStr "ws://127.0.0.1:9944") ]} [] [])
     = (Err (Exn AttributeError "'str' object has no attribute 'close'"),
        World ∅ [] []).
Proof. split; reflexivity. Qed.

Lemma disconnect_outcomes_witness :
  disconnect sample.connected = (Ok True_, World ∅ [1] [])
  /\ disconnect (World ∅ [1] []) = (Ok False_, World ∅ [1] []).
Proof.
  exact (proj1 (proj2 (disconnect_outcomes sample.connected)) 1 eq_refl).
Defined.

(** C8, as stated, fails twice over.  A [connect] the transport rejects
    while an earlier connection is still stored leaves that [api] entry in
    place, and the following [disconnect] returns [True]; and a [connect]
    that fails because the registry file cannot be read raises without
    logging anything. *)
Lemma failed_connect_keeps_earlier_api :
  connect sample.registry_found sample.transport_rejects
    sample.endpoint true ∅ sample.connected
  = (Err sample.rejected,
     World {[ "api" := Substrate 1 ]} []
       ["Error connecting to blockchain: connection rejected"])
  /\ disconnect
       (World {[ "api" := Substrate 1 ]} []
          ["Error connecting to blockchain: connection rejected"])
     = (Ok True_,
        World ∅ [1] ["Error connecting to blockchain: connection rejected"])
  /\ connect sample.registry_missing sample.transport_accepts
       sample.endpoint true ∅ sample.fresh
     = (Err (Exn OSError "No such file or directory: 'custom-type.json'"),
        sample.fresh).
Proof. repeat split; reflexivity. Qed.

Lemma connect_failure_keeps_configuration_witness :
  (sample.registry_found "custom-type.json" = Err sample.rejected
   \/ exists custom_type,
        sample.registry_found "custom-type.json" = Ok custom_type
        /\ construct sample.transport_rejects sample.endpoint ∅ custom_type
           = Err sample.rejected)
  /\ configuration
       (World ∅ [] ["Error connecting to blockchain: connection rejected"]) = ∅
  /\ closed
       (World ∅ [] ["Error connecting to blockchain: connection rejected"]) = []
  /\ logged
       (World ∅ [] ["Error connecting to blockchain: connection rejected"])
     = ["Error connecting to blockchain: connection rejected"]
  /\ ((∅ : gmap string value) !! "api" = None ->
      disconnect
        (World ∅ [] ["Error connecting to blockchain: connection rejected"])
      = (Ok False_,
         World ∅ [] ["Error connecting to blockchain: connection rejected"])).
Proof.
  exact (connect_failure_keeps_configuration sample.registry_found
           sample.transport_rejects sample.endpoint true ∅ sample.fresh
           (World ∅ [] ["Error connecting to blockchain: connection rejected"])
           sample.rejected eq_refl).
Defined.

Lemma connect_success_configuration_witness :
  (exists h, Substrate 7 = Substrate h)
  /\ configuration (World {[ "api" := Substrate 7 ]} [] [])
     = {[ "api" := Substrate 7 ]}
  /\ (forall key, key ≠ "api" ->
        configuration (World {[ "api" := Substrate 7 ]} [] []) !! key = None).
Proof.
  exact (connect_success_configuration sample.registry_found
           sample.transport_accepts sample.endpoint true ∅ sample.configured
           (World {[ "api" := Substrate 7 ]} [] []) (Substrate 7) eq_refl).
Defined.

(** *** Further worked examples *)

Lemma connect_then_disconnect_witness :
  exists h,
    Substrate 7 = Substrate h
    /\ disconnect (World {[ "api" := Substrate 7 ]} [] [])
       = (Ok True_, World ∅ [h] []).
Proof.
  exact (connect_then_disconnect sample.registry_found sample.transport_accepts
           sample.endpoint true ∅ sample.configured
           (World {[ "api" := Substrate 7 ]} [] []) (Substrate 7) eq_refl).
Defined.

Lemma connect_repeated_keyword_witness :
  exists e,
    connect sample.registry_found sample.transport_accepts sample.endpoint true
      {[ "url" := Atom (PyStr "ws://elsewhere:9944") ]} sample.fresh
    = (Err e, sample.fresh)
    /\ exn_cls e = TypeError.
Proof.
  apply (connect_repeated_keyword sample.registry_found sample.transport_accepts
           sample.endpoint true
           {[ "url" := Atom (PyStr "ws://elsewhere:9944") ]} sample.fresh
           (Dict ∅) eq_refl).
  left. exists (Atom (PyStr "ws://elsewhere:9944")). reflexivity.
Defined.

Lemma init_forgets_connection_witness :
  disconnect (init None sample.connected).2
  = (Ok False_, (init None sample.connected).2)
  /\ closed (init None sample.connected).2 = [].
Proof.
  apply (init_forgets_connection None sample.connected).
  intros c H. discriminate H.
Defined.

End config_spec.
